(** * Verification of fraclib's trading signal record and its codec

    Shallow embedding of [src/src/fraclib/types/signals.py]: the enums, the
    [TradingSignal] dataclass (class creation, generated [__init__],
    [__post_init__]), [to_dict] and [from_dict], over a model of the Python
    values they handle ([None], [bool], [int], [str], [Decimal], [datetime]
    and enum members). *)

From Stdlib Require Import String Ascii List ZArith NArith Bool Lia DecimalN.
Import ListNotations.

Local Open Scope string_scope.
Local Open Scope list_scope.

(** ** Characters and digit strings *)

Definition is_digit (c : ascii) : bool :=
  ((48 <=? nat_of_ascii c) && (nat_of_ascii c <=? 57))%nat.

(** Python's [str.isspace] on the ASCII range. *)
Definition is_space (c : ascii) : bool :=
  let n := nat_of_ascii c in
  ((9 <=? n) && (n <=? 13) || (28 <=? n) && (n <=? 32))%nat.

Definition lower (c : ascii) : ascii :=
  let n := nat_of_ascii c in
  if ((65 <=? n) && (n <=? 90))%nat then ascii_of_nat (n + 32) else c.

Fixpoint chars_of_uint (u : Decimal.uint) : list ascii :=
  match u with
  | Decimal.Nil => []
  | Decimal.D0 u => "0"%char :: chars_of_uint u
  | Decimal.D1 u => "1"%char :: chars_of_uint u
  | Decimal.D2 u => "2"%char :: chars_of_uint u
  | Decimal.D3 u => "3"%char :: chars_of_uint u
  | Decimal.D4 u => "4"%char :: chars_of_uint u
  | Decimal.D5 u => "5"%char :: chars_of_uint u
  | Decimal.D6 u => "6"%char :: chars_of_uint u
  | Decimal.D7 u => "7"%char :: chars_of_uint u
  | Decimal.D8 u => "8"%char :: chars_of_uint u
  | Decimal.D9 u => "9"%char :: chars_of_uint u
  end.

(** Reads a run of ASCII digits (the parser only calls it on digits). *)
Fixpoint uint_of_digits (l : list ascii) : Decimal.uint :=
  match l with
  | [] => Decimal.Nil
  | c :: r =>
      let u := uint_of_digits r in
      match c with
      | "1"%char => Decimal.D1 u
      | "2"%char => Decimal.D2 u
      | "3"%char => Decimal.D3 u
      | "4"%char => Decimal.D4 u
      | "5"%char => Decimal.D5 u
      | "6"%char => Decimal.D6 u
      | "7"%char => Decimal.D7 u
      | "8"%char => Decimal.D8 u
      | "9"%char => Decimal.D9 u
      | _ => Decimal.D0 u
      end
  end.

(** [str(n)] for a non-negative Python [int]. *)
Definition N_digits (n : N) : list ascii := chars_of_uint (N.to_uint n).

(** [str(z)] / [repr(z)] for a Python [int]. *)
Definition Z_chars (z : Z) : list ascii :=
  if (z <? 0)%Z then "-"%char :: N_digits (Z.to_N (- z)) else N_digits (Z.to_N z).

(** ["%0<w>d" % z] for a non-negative [z]. *)
Definition zpad (w : nat) (z : Z) : list ascii :=
  let d := N_digits (Z.to_N z) in repeat "0"%char (w - length d) ++ d.

Definition chars (s : string) : list ascii := list_ascii_of_string s.
Definition str (l : list ascii) : string := string_of_list_ascii l.

Fixpoint span {A} (p : A -> bool) (l : list A) : list A * list A :=
  match l with
  | [] => ([], [])
  | x :: r => if p x then let (a, b) := span p r in (x :: a, b) else ([], l)
  end.

Fixpoint drop_while {A} (p : A -> bool) (l : list A) : list A :=
  match l with
  | [] => []
  | x :: r => if p x then drop_while p r else l
  end.

(** ** [decimal.Decimal]

    A [Decimal] is [(sign, _int, _exp, _is_special)]; [_int] holds
    [str(int(...))] of the coefficient, so it is a natural number here.  NaN
    diagnostics are kept as the number their digit string denotes ([0] for the
    empty string). *)

Inductive decimal :=
| DFinite (sign : bool) (coef : N) (exp : Z)
| DInf (sign : bool)
| DNaN (sign : bool) (diag : N)
| DsNaN (sign : bool) (diag : N).

Definition sign_chars (s : bool) : list ascii := if s then ["-"%char] else [].

Definition diag_chars (d : N) : list ascii :=
  match d with 0%N => [] | _ => N_digits d end.

(** ["%+d" % z] *)
Definition signed_chars (z : Z) : list ascii :=
  if (z <? 0)%Z then "-"%char :: N_digits (Z.to_N (- z))
  else "+"%char :: N_digits (Z.to_N z).

(** [Decimal.__str__] (scientific form, [context.capitals = 1]). *)
Definition dec_str (d : decimal) : list ascii :=
  match d with
  | DInf s => sign_chars s ++ chars "Infinity"
  | DNaN s p => sign_chars s ++ chars "NaN" ++ diag_chars p
  | DsNaN s p => sign_chars s ++ chars "sNaN" ++ diag_chars p
  | DFinite s c e =>
      let digs := N_digits c in
      let len := Z.of_nat (length digs) in
      let leftdigits := (e + len)%Z in
      let dotplace :=
        if (e <=? 0)%Z && (-6 <? leftdigits)%Z then leftdigits else 1%Z in
      let '(intpart, fracpart) :=
        if (dotplace <=? 0)%Z then
          (["0"%char], "."%char :: repeat "0"%char (Z.to_nat (- dotplace)) ++ digs)
        else if (len <=? dotplace)%Z then
          (digs ++ repeat "0"%char (Z.to_nat (dotplace - len)), [])
        else
          (firstn (Z.to_nat dotplace) digs,
           "."%char :: skipn (Z.to_nat dotplace) digs) in
      let expo :=
        if (leftdigits =? dotplace)%Z then []
        else "E"%char :: signed_chars (leftdigits - dotplace) in
      sign_chars s ++ intpart ++ fracpart ++ expo
  end.

(** The string grammar of [Decimal(value)]: [value.strip().replace("_", "")]
    matched case-insensitively against
    [sign? ((?=\d|\.\d) int (\. frac)? (E exp)? | Inf(inity)? | s? NaN diag) \Z]. *)

Definition strip (l : list ascii) : list ascii :=
  rev (drop_while is_space (rev (drop_while is_space l))).

Definition remove_underscores (l : list ascii) : list ascii :=
  filter (fun c => negb (Ascii.eqb c "_"%char)) l.

Definition digits_value (l : list ascii) : N := N.of_uint (uint_of_digits l).

(** An optional sign, [[-+]?]: whether it is a minus, and the rest. *)
Definition split_sign (l : list ascii) : bool * list ascii :=
  match l with
  | "-"%char :: r => (true, r)
  | "+"%char :: r => (false, r)
  | _ => (false, l)
  end.

(** [[-+]?\d+] followed by the end of the input. *)
Definition parse_exponent (l : list ascii) : option Z :=
  let '(neg, r) := split_sign l in
  let (ds, rest) := span is_digit r in
  match ds, rest with
  | _ :: _, [] =>
      let v := Z.of_N (digits_value ds) in Some (if neg then (- v)%Z else v)
  | _, _ => None
  end.

Definition parse_finite (sign : bool) (l : list ascii) : option decimal :=
  let (ip, r1) := span is_digit l in
  let '(fp, r2) :=
    match r1 with
    | "."%char :: r => span is_digit r
    | _ => ([], r1)
    end in
  match ip ++ fp with
  | [] => None
  | _ =>
      let coef := digits_value (ip ++ fp) in
      let fexp := Z.of_nat (length fp) in
      match r2 with
      | [] => Some (DFinite sign coef (- fexp)%Z)
      | e :: r3 =>
          if Ascii.eqb (lower e) "e"%char then
            match parse_exponent r3 with
            | Some x => Some (DFinite sign coef (x - fexp)%Z)
            | None => None
            end
          else None
      end
  end.

Fixpoint chars_eqb (a b : list ascii) : bool :=
  match a, b with
  | [], [] => true
  | x :: a', y :: b' => Ascii.eqb x y && chars_eqb a' b'
  | _, _ => false
  end.

Definition parse_special (sign : bool) (l : list ascii) : option decimal :=
  let low := map lower l in
  if chars_eqb low (chars "inf") then Some (DInf sign)
  else if chars_eqb low (chars "infinity") then Some (DInf sign)
  else
    let '(signal, r) :=
      match low with
      | "s"%char :: r => (true, r)
      | _ => (false, low)
      end in
    match r with
    | "n"%char :: "a"%char :: "n"%char :: diag =>
        if forallb is_digit diag then
          Some (if signal then DsNaN sign (digits_value diag)
                else DNaN sign (digits_value diag))
        else None
    | _ => None
    end.

(** [Decimal(value)] for a [str] value; [None] is the [ConversionSyntax]
    signal, raised as [InvalidOperation] under the default context. *)
Definition parse_decimal (s : list ascii) : option decimal :=
  let t := remove_underscores (strip s) in
  let '(sign, t1) := split_sign t in
  match parse_finite sign t1 with
  | Some d => Some d
  | None => parse_special sign t1
  end.

(** ** [datetime.datetime]

    A datetime with its fields and, for an aware value, its UTC offset in
    minutes. *)

Record datetime := mkDatetime {
  dt_year : Z; dt_month : Z; dt_day : Z;
  dt_hour : Z; dt_minute : Z; dt_second : Z; dt_microsecond : Z;
  dt_utcoffset : option Z
}.

(** [datetime._format_offset] for a whole number of minutes. *)
Definition format_offset (off : option Z) : list ascii :=
  match off with
  | None => []
  | Some o =>
      let sgn := if (o <? 0)%Z then "-"%char else "+"%char in
      let a := Z.abs o in
      sgn :: zpad 2 (a / 60) ++ ":"%char :: zpad 2 (a mod 60)
  end.

(** [datetime.isoformat(sep)] *)
Definition isoformat (sep : ascii) (t : datetime) : list ascii :=
  zpad 4 (dt_year t) ++ "-"%char :: zpad 2 (dt_month t) ++ "-"%char :: zpad 2 (dt_day t)
  ++ sep :: zpad 2 (dt_hour t) ++ ":"%char :: zpad 2 (dt_minute t)
  ++ ":"%char :: zpad 2 (dt_second t)
  ++ (if (dt_microsecond t =? 0)%Z then [] else "."%char :: zpad 6 (dt_microsecond t))
  ++ format_offset (dt_utcoffset t).

(** Days since 0001-01-01 in the proleptic Gregorian calendar. *)
Definition days_from_civil (y m d : Z) : Z :=
  let y' := if (m <=? 2)%Z then (y - 1)%Z else y in
  let era := (y' / 400)%Z in
  let yoe := (y' - era * 400)%Z in
  let mp := ((m + 9) mod 12)%Z in
  let doy := ((153 * mp + 2) / 5 + d - 1)%Z in
  let doe := (yoe * 365 + yoe / 4 - yoe / 100 + doy)%Z in
  (era * 146097 + doe)%Z.

(** The instant of an aware datetime, in microseconds, UTC. *)
Definition utc_micros (t : datetime) (off : Z) : Z :=
  ((((days_from_civil (dt_year t) (dt_month t) (dt_day t) * 24 + dt_hour t) * 60
     + dt_minute t - off) * 60 + dt_second t) * 1000000 + dt_microsecond t)%Z.

(** [datetime.__eq__]: naive values compare field by field, aware values by
    instant, and a naive value is never equal to an aware one. *)
Definition datetime_eq (a b : datetime) : bool :=
  match dt_utcoffset a, dt_utcoffset b with
  | None, None =>
      (dt_year a =? dt_year b) && (dt_month a =? dt_month b)
      && (dt_day a =? dt_day b) && (dt_hour a =? dt_hour b)
      && (dt_minute a =? dt_minute b) && (dt_second a =? dt_second b)
      && (dt_microsecond a =? dt_microsecond b)
  | Some oa, Some ob => (utc_micros a oa =? utc_micros b ob)%Z
  | _, _ => false
  end%Z.

(** ** The enums of the module *)

Inductive enum_class := TradeType | SignalType | Side | OrderType.

Definition enum_class_eqb (a b : enum_class) : bool :=
  match a, b with
  | TradeType, TradeType | SignalType, SignalType
  | Side, Side | OrderType, OrderType => true
  | _, _ => false
  end.

Definition enum_class_name (c : enum_class) : string :=
  match c with
  | TradeType => "TradeType"
  | SignalType => "SignalType"
  | Side => "Side"
  | OrderType => "OrderType"
  end.

(** Members as [(name, value)] pairs, in definition order. *)
Definition enum_members (c : enum_class) : list (string * string) :=
  match c with
  | TradeType => [("PERP", "PERP"); ("SPOT", "SPOT"); ("EVM", "EVM")]
  | SignalType => [("TRADE", "TRADE")]
  | Side => [("BUY", "BUY"); ("SELL", "SELL")]
  | OrderType =>
      [("MARKET", "MARKET"); ("LIMIT", "LIMIT");
       ("STOP_LOSS", "STOP_LOSS"); ("TAKE_PROFIT", "TAKE_PROFIT")]
  end%string.

Fixpoint assoc {A} (k : string) (l : list (string * A)) : option A :=
  match l with
  | [] => None
  | (k', v) :: r => if String.eqb k k' then Some v else assoc k r
  end.

(** ** Python values

    The values a signal's attributes and a codec map hold.  An enum member
    is named by its class and member name. *)

Inductive pyval :=
| VNone
| VBool (b : bool)
| VInt (z : Z)
| VStr (s : string)
| VDecimal (d : decimal)
| VDatetime (t : datetime)
| VEnum (cls : enum_class) (name : string).

(** ** Python exceptions and the error monad *)

Inductive pyexn :=
| TypeError (msg : string)
| ValueError (msg : string)
| KeyError (key : pyval)
| InvalidOperation.

Inductive result (A : Type) :=
| Ok (a : A)
| Err (e : pyexn).
Arguments Ok {A} a.
Arguments Err {A} e.

Definition rbind {A B} (m : result A) (k : A -> result B) : result B :=
  match m with
  | Ok a => k a
  | Err e => Err e
  end.

Notation "x <- m ;; k" := (rbind m (fun x => k))
  (at level 61, m at next level, right associativity).

(** [str(v)] *)
Definition py_str (v : pyval) : list ascii :=
  match v with
  | VNone => chars "None"
  | VBool true => chars "True"
  | VBool false => chars "False"
  | VInt z => Z_chars z
  | VStr s => chars s
  | VDecimal d => dec_str d
  | VDatetime t => isoformat " "%char t
  | VEnum c n => chars (enum_class_name c) ++ "."%char :: chars n
  end.

(** [bool(v)] *)
Definition py_truthy (v : pyval) : bool :=
  match v with
  | VNone => false
  | VBool b => b
  | VInt z => negb (z =? 0)%Z
  | VStr s => negb (String.eqb s "")
  | VDecimal (DFinite _ c _) => negb (c =? 0)%N
  | VDecimal _ => true
  | VDatetime _ => true
  | VEnum _ _ => true
  end.

Definition is_none (v : pyval) : bool :=
  match v with VNone => true | _ => false end.

(** [v == Cls.NAME]: an enum member is equal only to itself. *)
Definition is_member (v : pyval) (c : enum_class) (n : string) : bool :=
  match v with
  | VEnum c' n' => enum_class_eqb c c' && String.eqb n n'
  | _ => false
  end.

(** *** Numbers and their comparisons

    [bool], [int] and [Decimal] compare by value; a NaN operand makes an
    ordering comparison raise [InvalidOperation], and any other operand type
    makes it raise [TypeError]. *)

Inductive pynum := NFin (mant : Z) (exp : Z) | NInf (sign : bool) | NNaN (signaling : bool).

Definition num_of (v : pyval) : option pynum :=
  match v with
  | VBool b => Some (NFin (if b then 1 else 0) 0)
  | VInt z => Some (NFin z 0)
  | VDecimal (DFinite s c e) => Some (NFin (if s then - Z.of_N c else Z.of_N c) e)
  | VDecimal (DInf s) => Some (NInf s)
  | VDecimal (DNaN _ _) => Some (NNaN false)
  | VDecimal (DsNaN _ _) => Some (NNaN true)
  | _ => None
  end%Z.

(** [m1 * 10^e1] against [m2 * 10^e2]. *)
Definition fin_compare (m1 e1 m2 e2 : Z) : comparison :=
  let e := Z.min e1 e2 in
  Z.compare (m1 * 10 ^ (e1 - e)) (m2 * 10 ^ (e2 - e)).

Definition num_compare (a b : pynum) : result comparison :=
  match a, b with
  | NNaN _, _ | _, NNaN _ => Err InvalidOperation
  | NFin m1 e1, NFin m2 e2 => Ok (fin_compare m1 e1 m2 e2)
  | NInf s1, NInf s2 =>
      Ok (match s1, s2 with
          | true, false => Lt | false, true => Gt | _, _ => Eq end)
  | NInf s, NFin _ _ => Ok (if s then Lt else Gt)
  | NFin _ _, NInf s => Ok (if s then Gt else Lt)
  end.

Definition type_name (v : pyval) : string :=
  match v with
  | VNone => "NoneType" | VBool _ => "bool" | VInt _ => "int" | VStr _ => "str"
  | VDecimal _ => "decimal.Decimal" | VDatetime _ => "datetime.datetime"
  | VEnum c _ => enum_class_name c
  end.

Definition py_compare (op : string) (a b : pyval) : result comparison :=
  match num_of a, num_of b with
  | Some x, Some y => num_compare x y
  | _, _ =>
      Err (TypeError ("'" ++ op ++ "' not supported between instances of '"
                      ++ type_name a ++ "' and '" ++ type_name b ++ "'"))%string
  end.

Definition py_lt (a b : pyval) : result bool :=
  c <- py_compare "<" a b ;; Ok (match c with Lt => true | _ => false end).

Definition py_le (a b : pyval) : result bool :=
  c <- py_compare "<=" a b ;; Ok (match c with Gt => false | _ => true end).

(** [a == b]: numbers by value (a quiet NaN is equal to nothing, a signaling
    NaN raises), strings, datetimes and enum members as in Python; values of
    unrelated types are unequal. *)
Definition py_eq (a b : pyval) : result bool :=
  match a, b with
  | VNone, VNone => Ok true
  | VStr x, VStr y => Ok (String.eqb x y)
  | VDatetime x, VDatetime y => Ok (datetime_eq x y)
  | VEnum c n, VEnum c' n' => Ok (enum_class_eqb c c' && String.eqb n n')
  | _, _ =>
      match num_of a, num_of b with
      | Some (NNaN true), Some _ | Some _, Some (NNaN true) => Err InvalidOperation
      | Some (NNaN false), Some _ | Some _, Some (NNaN false) => Ok false
      | Some x, Some y =>
          Ok (match num_compare x y with Ok Eq => true | _ => false end)
      | _, _ => Ok false
      end
  end.

(** ** Python dicts

    An insertion-ordered association list with distinct keys; [d[k] = v]
    replaces the value of an existing key in place and appends a new one. *)

Definition pydict := list (string * pyval).

Fixpoint setitem (k : string) (v : pyval) (d : pydict) : pydict :=
  match d with
  | [] => [(k, v)]
  | (k', v') :: r =>
      if String.eqb k k' then (k, v) :: r else (k', v') :: setitem k v r
  end.

Definition keys (d : pydict) : list string := map fst d.

(** ** The [TradingSignal] dataclass *)

(** The annotated fields in declaration order, with their default value. *)
Definition TradingSignal_fields : list (string * option pyval) :=
  [("signal_id", None); ("timestamp", None); ("type", None);
   ("trade_type", None); ("symbol", None); ("side", None);
   ("order_type", None);
   ("amount_capital_percent", None); ("fixed_size", Some VNone);
   ("leverage", Some VNone);
   ("limit_price", Some VNone); ("stop_price", Some VNone);
   ("take_profit_price", Some VNone); ("slippage", Some VNone);
   ("network", Some VNone); ("contract_address", Some VNone);
   ("dex_id", Some VNone);
   ("reduce_only", Some (VBool false));
   ("message", None); ("source", Some VNone); ("strategy_name", Some VNone);
   ("timeframe", Some VNone); ("exchange", Some VNone)]%string.

Definition field_names : list string := map fst TradingSignal_fields.

(** [dataclasses._init_fn]: while building [__init__], a field without a
    default after a field with one is refused. *)
Fixpoint check_field_order (seen_default : bool) (fs : list (string * option pyval))
  : result unit :=
  match fs with
  | [] => Ok tt
  | (n, Some _) :: r => check_field_order true r
  | (n, None) :: r =>
      if seen_default then
        Err (TypeError ("non-default argument '" ++ n ++ "' follows default argument"))
      else check_field_order false r
  end.

(** Executing the [@dataclass class TradingSignal] statement. *)
Definition TradingSignal_class : result unit := check_field_order false TradingSignal_fields.

(** An instance: its attributes, one per field. *)
Record TradingSignal := mkTradingSignal {
  signal_id : pyval; timestamp : pyval; type : pyval; trade_type : pyval;
  symbol : pyval; side : pyval; order_type : pyval;
  amount_capital_percent : pyval; fixed_size : pyval; leverage : pyval;
  limit_price : pyval; stop_price : pyval; take_profit_price : pyval;
  slippage : pyval;
  network : pyval; contract_address : pyval; dex_id : pyval;
  reduce_only : pyval;
  message : pyval; source : pyval; strategy_name : pyval; timeframe : pyval;
  exchange : pyval
}.

(** [(f, getattr(self, f)) for f in self.__dataclass_fields__] *)
Definition ts_fields (s : TradingSignal) : list (string * pyval) :=
  [("signal_id", signal_id s); ("timestamp", timestamp s); ("type", type s);
   ("trade_type", trade_type s); ("symbol", symbol s); ("side", side s);
   ("order_type", order_type s);
   ("amount_capital_percent", amount_capital_percent s);
   ("fixed_size", fixed_size s); ("leverage", leverage s);
   ("limit_price", limit_price s); ("stop_price", stop_price s);
   ("take_profit_price", take_profit_price s); ("slippage", slippage s);
   ("network", network s); ("contract_address", contract_address s);
   ("dex_id", dex_id s); ("reduce_only", reduce_only s);
   ("message", message s); ("source", source s);
   ("strategy_name", strategy_name s); ("timeframe", timeframe s);
   ("exchange", exchange s)]%string.

(** The attribute assignments of the generated [__init__]. *)
Definition mk_signal (arg : string -> pyval) : TradingSignal :=
  {| signal_id := arg "signal_id"; timestamp := arg "timestamp"; type := arg "type";
     trade_type := arg "trade_type"; symbol := arg "symbol"; side := arg "side";
     order_type := arg "order_type";
     amount_capital_percent := arg "amount_capital_percent";
     fixed_size := arg "fixed_size"; leverage := arg "leverage";
     limit_price := arg "limit_price"; stop_price := arg "stop_price";
     take_profit_price := arg "take_profit_price"; slippage := arg "slippage";
     network := arg "network"; contract_address := arg "contract_address";
     dex_id := arg "dex_id"; reduce_only := arg "reduce_only";
     message := arg "message"; source := arg "source";
     strategy_name := arg "strategy_name"; timeframe := arg "timeframe";
     exchange := arg "exchange" |}%string.

Definition is_field (k : string) : bool := existsb (String.eqb k) field_names.

Definition has_key (k : string) (d : pydict) : bool := existsb (String.eqb k) (keys d).

(** Binding keyword arguments to the parameters of the generated
    [__init__]: an unknown keyword, then a missing required parameter, raise
    [TypeError]; an omitted parameter takes its default. *)
Definition bind_kwargs (kw : pydict) : result (string -> pyval) :=
  match find (fun kv => negb (is_field (fst kv))) kw with
  | Some (k, _) =>
      Err (TypeError ("__init__() got an unexpected keyword argument '" ++ k ++ "'"))
  | None =>
      match filter (fun fd => match snd fd with
                              | None => negb (has_key (fst fd) kw)
                              | Some _ => false
                              end) TradingSignal_fields with
      | (n, _) :: _ =>
          Err (TypeError ("__init__() missing required argument: '" ++ n ++ "'"))
      | [] =>
          Ok (fun n => match assoc n kw with
                       | Some v => v
                       | None => match assoc n TradingSignal_fields with
                                 | Some (Some dv) => dv
                                 | _ => VNone
                                 end
                       end)
      end
  end%string.

(** [TradingSignal.__post_init__] *)
Definition post_init (s : TradingSignal) : result unit :=
  lo <- py_lt (VInt 0) (amount_capital_percent s) ;;
  in_range <- (if lo then py_le (amount_capital_percent s) (VInt 100) else Ok false) ;;
  if negb in_range then
    Err (ValueError "amount_capital_percent must be between 0 and 100")
  else if is_member (trade_type s) TradeType "EVM"
          && negb (py_truthy (contract_address s)) then
    Err (ValueError "contract_address is required for EVM trades")
  else if is_member (order_type s) OrderType "LIMIT" && is_none (limit_price s) then
    Err (ValueError "limit_price is required for LIMIT and POST_ONLY orders")
  else if is_member (order_type s) OrderType "STOP_LOSS" && is_none (stop_price s) then
    Err (ValueError "stop_price is required for STOP_LOSS orders")
  else if is_member (order_type s) OrderType "TAKE_PROFIT"
          && is_none (take_profit_price s) then
    Err (ValueError "take_profit_price is required for TAKE_PROFIT orders")
  else Ok tt.

(** The generated [__init__] followed by [__post_init__], called with keyword
    arguments: what calling the class does once the class exists. *)
Definition TradingSignal_init (kw : pydict) : result TradingSignal :=
  arg <- bind_kwargs kw ;;
  let s := mk_signal arg in
  _ <- post_init s ;;
  Ok s.

(** Calling the class with keyword arguments [kw] in the module as written: the class statement runs
    first. *)
Definition TradingSignal_call (kw : pydict) : result TradingSignal :=
  _ <- TradingSignal_class ;;
  TradingSignal_init kw.

(** The generated [__eq__]: field by field, stopping at the first unequal or
    raising comparison. *)
Fixpoint fields_eq (l : list (pyval * pyval)) : result bool :=
  match l with
  | [] => Ok true
  | (a, b) :: r => e <- py_eq a b ;; if e then fields_eq r else Ok false
  end.

Definition TradingSignal_eq (a b : TradingSignal) : result bool :=
  fields_eq (combine (map snd (ts_fields a)) (map snd (ts_fields b))).

(** ** [to_dict] *)

Definition enum_value (c : enum_class) (n : string) : string :=
  match assoc n (enum_members c) with Some v => v | None => n end.

(** The [isinstance] dispatch of the second loop. *)
Definition to_dict_value (v : pyval) : pyval :=
  match v with
  | VEnum c n => VStr (enum_value c n)
  | VDatetime t => VStr (str (isoformat "T"%char t ++ ["Z"%char]))
  | VDecimal d => VStr (str (dec_str d))
  | _ => v
  end.

Definition to_dict (s : TradingSignal) : pydict :=
  let data := filter (fun fv => negb (is_none (snd fv))) (ts_fields s) in
  fold_left (fun acc fv => setitem (fst fv) (to_dict_value (snd fv)) acc) data data.

(** ** [from_dict]

    [from_dict] converts the entries of the dict it is given in place, so the
    caller's dict is threaded as state: a computation maps the dict to its new
    contents and an outcome. *)

Definition DictM (A : Type) := pydict -> pydict * result A.

Definition mret {A} (a : A) : DictM A := fun d => (d, Ok a).

Definition mbind {A B} (m : DictM A) (k : A -> DictM B) : DictM B :=
  fun d => let (d', r) := m d in
           match r with
           | Ok a => k a d'
           | Err e => (d', Err e)
           end.

Notation "x <~ m ;; k" := (mbind m (fun x => k))
  (at level 61, m at next level, right associativity).

Definition mget : DictM pydict := fun d => (d, Ok d).

Definition mset (k : string) (v : pyval) : DictM unit := fun d => (setitem k v d, Ok tt).

Definition mlift {A} (r : result A) : DictM A := fun d => (d, r).

Fixpoint mfor_ {A} (l : list A) (body : A -> DictM unit) : DictM unit :=
  match l with
  | [] => mret tt
  | x :: r => _ <~ body x ;; mfor_ r body
  end.

(** [enum_class[v]], i.e. [enum_class._member_map_[v]]: lookup by member
    name. *)
Definition enum_getitem (c : enum_class) (v : pyval) : result pyval :=
  match v with
  | VStr n =>
      match assoc n (enum_members c) with
      | Some _ => Ok (VEnum c n)
      | None => Err (KeyError v)
      end
  | _ => Err (KeyError v)
  end.

(** [Decimal(s)] for a [str]. *)
Definition Decimal_of_str (s : list ascii) : result pyval :=
  match parse_decimal s with
  | Some d => Ok (VDecimal d)
  | None => Err InvalidOperation
  end.

Definition enum_fields : list (string * enum_class) :=
  [("type", SignalType); ("trade_type", TradeType); ("side", Side);
   ("order_type", OrderType)]%string.

Definition decimal_fields : list string :=
  ["amount_capital_percent"; "fixed_size"; "leverage";
   "limit_price"; "stop_price"; "take_profit_price"; "slippage"]%string.

Definition convert_enum_field (fc : string * enum_class) : DictM unit :=
  let (field, enum_class) := fc in
  data <~ mget ;;
  match assoc field data with
  | Some v => e <~ mlift (enum_getitem enum_class v) ;; mset field e
  | None => mret tt
  end.

Definition convert_decimal_field (field : string) : DictM unit :=
  data <~ mget ;;
  match assoc field data with
  | Some v =>
      if is_none v then mret tt
      else x <~ mlift (Decimal_of_str (py_str v)) ;; mset field x
  | None => mret tt
  end.

(** [TradingSignal.from_dict(data)]; the final call unpacks [data] as
    keyword arguments to the class. *)
Definition from_dict : DictM TradingSignal :=
  _ <~ mfor_ enum_fields convert_enum_field ;;
  _ <~ mfor_ decimal_fields convert_decimal_field ;;
  data <~ mget ;;
  mlift (TradingSignal_init data).

(** ** Concrete inputs *)

(** The [signal_dict] of the module's example usage. *)
Definition example_dict : pydict :=
  [("signal_id", VStr "123e4567-e89b-12d3-a456-426614174000");
   ("timestamp", VStr "2024-02-19T12:00:00Z");
   ("type", VStr "TRADE"); ("trade_type", VStr "PERP");
   ("symbol", VStr "ETH-USDT"); ("side", VStr "BUY");
   ("order_type", VStr "LIMIT");
   ("amount_capital_percent", VStr "10.0");
   ("fixed_size", VStr "1.5"); ("leverage", VStr "10.0");
   ("limit_price", VStr "2000.0");
   ("message", VStr "ETH breakout trade")]%string.

Definition example_time : datetime := mkDatetime 2024 2 19 12 0 0 0 None.

(** The same signal as direct-construction keyword arguments, with typed
    values. *)
Definition example_kwargs : pydict :=
  [("signal_id", VStr "123e4567-e89b-12d3-a456-426614174000");
   ("timestamp", VDatetime example_time);
   ("type", VEnum SignalType "TRADE"); ("trade_type", VEnum TradeType "PERP");
   ("symbol", VStr "ETH-USDT"); ("side", VEnum Side "BUY");
   ("order_type", VEnum OrderType "LIMIT");
   ("amount_capital_percent", VDecimal (DFinite false 100 (-1)));
   ("fixed_size", VDecimal (DFinite false 15 (-1)));
   ("leverage", VDecimal (DFinite false 100 (-1)));
   ("limit_price", VDecimal (DFinite false 20000 (-1)));
   ("message", VStr "ETH breakout trade")]%string.

(** Percentages as [Decimal("0")], [Decimal("100.01")] and [Decimal("100")]. *)
Definition with_percent (p : decimal) : pydict :=
  setitem "amount_capital_percent" (VDecimal p) example_kwargs.

Definition evm_kwargs : pydict := setitem "trade_type" (VEnum TradeType "EVM") example_kwargs.

(** The example with [order_type] swapped to [o]; for [LIMIT] its
    [limit_price] is dropped. *)
Definition with_order_type (o : string) : pydict :=
  let kw := setitem "order_type" (VEnum OrderType o) example_kwargs in
  if String.eqb o "LIMIT" then filter (fun kv => negb (String.eqb (fst kv) "limit_price")) kw
  else kw.

Definition bogus_dict (field : string) : pydict := setitem field (VStr "BOGUS") example_dict.

(** The price field [__post_init__] requires for an order type, and the
    message it raises without it. *)
Definition companion (o : string) : option (string * string) :=
  if String.eqb o "LIMIT" then
    Some ("limit_price", "limit_price is required for LIMIT and POST_ONLY orders")
  else if String.eqb o "STOP_LOSS" then
    Some ("stop_price", "stop_price is required for STOP_LOSS orders")
  else if String.eqb o "TAKE_PROFIT" then
    Some ("take_profit_price", "take_profit_price is required for TAKE_PROFIT orders")
  else None.

(** The keyword binding of [with_order_type "LIMIT"]. *)
Definition limit_arg : string -> pyval :=
  match bind_kwargs (with_order_type "LIMIT") with
  | Ok arg => arg
  | Err _ => fun _ => VNone
  end.

(** ** Statement vocabulary *)

(** [n] names a member of [c]. *)
Definition is_member_name (c : enum_class) (n : string) : bool :=
  existsb (String.eqb n) (map fst (enum_members c)).

(** An entry [from_dict]'s enum loop accepts for class [c]: absent, or a
    member name. *)
Definition enum_ok (c : enum_class) (o : option pyval) : Prop :=
  match o with
  | None => True
  | Some v => exists n, v = VStr n /\ is_member_name c n = true
  end.

Definition is_decimal_field (k : string) : bool := existsb (String.eqb k) decimal_fields.

(** The values a JSON document decodes to. *)
Definition json_scalar (v : pyval) : bool :=
  match v with
  | VNone | VBool _ | VInt _ | VStr _ => true
  | _ => false
  end.

(** [str(Decimal(str(v)))], where [Decimal] accepts the text. *)
Definition canonical_text (v : pyval) : pyval :=
  match parse_decimal (py_str v) with
  | Some d => VStr (str (dec_str d))
  | None => v
  end.

Definition opt_rel (R : pyval -> pyval -> Prop) (o o' : option pyval) : Prop :=
  match o, o' with
  | None, None => True
  | Some v, Some v' => R v v'
  | _, _ => False
  end.

(** How [from_dict] rewrites the entry of key [k]. *)
Definition decoded_entry (k : string) (v v' : pyval) : Prop :=
  match assoc k enum_fields with
  | Some c => enum_getitem c v = Ok v'
  | None =>
      if is_decimal_field k
      then (v = VNone /\ v' = VNone) \/ (v <> VNone /\ Decimal_of_str (py_str v) = Ok v')
      else v' = v
  end.

(** The record [from_dict] builds from the module's example dict. *)
Definition example_signal : TradingSignal :=
  match snd (from_dict example_dict) with
  | Ok s => s
  | Err _ => mk_signal (fun _ => VNone)
  end.

(** ** General lemmas *)

Lemma TradingSignal_class_fails :
  TradingSignal_class = Err (TypeError "non-default argument 'message' follows default argument").
Proof. reflexivity. Qed.

Lemma TradingSignal_call_fails (kw : pydict) :
  TradingSignal_call kw = Err (TypeError "non-default argument 'message' follows default argument").
Proof. unfold TradingSignal_call. rewrite TradingSignal_class_fails. reflexivity. Qed.

Lemma assoc_setitem (k k' : string) (v : pyval) (d : pydict) :
  assoc k (setitem k' v d) = if String.eqb k k' then Some v else assoc k d.
Proof.
  induction d as [|[k0 v0] d IH]; simpl.
  - reflexivity.
  - destruct (String.eqb k' k0) eqn:E1; simpl.
    + apply String.eqb_eq in E1; subst k0.
      destruct (String.eqb k k'); reflexivity.
    + rewrite IH. destruct (String.eqb k k') eqn:E2; [|reflexivity].
      apply String.eqb_eq in E2; subst k'.
      rewrite E1. reflexivity.
Qed.

Lemma keys_setitem_present (k : string) (v : pyval) (d : pydict) :
  In k (keys d) -> keys (setitem k v d) = keys d.
Proof.
  induction d as [|[k0 v0] d IH]; simpl; intros H; [contradiction|].
  destruct (String.eqb k k0) eqn:E; simpl.
  - apply String.eqb_eq in E; subst; reflexivity.
  - f_equal. apply IH. destruct H as [H|H]; [|exact H].
    subst. rewrite String.eqb_refl in E. discriminate.
Qed.

Lemma assoc_notin {A} (k : string) (l : list (string * A)) :
  ~ In k (map fst l) -> assoc k l = None.
Proof.
  induction l as [|[k0 v0] l IH]; simpl; intros H; [reflexivity|].
  destruct (String.eqb k k0) eqn:E.
  - apply String.eqb_eq in E. subst. exfalso. apply H. left. reflexivity.
  - apply IH. intros Hin. apply H. right. exact Hin.
Qed.

Lemma assoc_in {A} (k : string) (l : list (string * A)) :
  assoc k l <> None -> In k (map fst l).
Proof.
  intros H. destruct (in_dec string_dec k (map fst l)) as [Hin|Hin]; [exact Hin|].
  exfalso. apply H. apply assoc_notin. exact Hin.
Qed.

Lemma setitem_app_notin (k : string) (v : pyval) (p q : pydict) :
  ~ In k (keys p) -> setitem k v (p ++ q) = p ++ setitem k v q.
Proof.
  induction p as [|[k0 v0] p IH]; simpl; intros H; [reflexivity|].
  destruct (String.eqb k k0) eqn:E.
  - apply String.eqb_eq in E. subst. exfalso. apply H. left. reflexivity.
  - f_equal. apply IH. intros Hin. apply H. right. exact Hin.
Qed.

Section ValueMap.
Variable g : pyval -> pyval.

Definition map_value (fv : string * pyval) : string * pyval := (fst fv, g (snd fv)).

Lemma keys_map_value (l : pydict) : keys (map map_value l) = keys l.
Proof. unfold keys. rewrite map_map. reflexivity. Qed.

(** Reassigning every key of a dict while iterating over its items. *)
Lemma fold_setitem_map (l pre : pydict) :
  NoDup (keys (pre ++ l)) ->
  fold_left (fun acc fv => setitem (fst fv) (g (snd fv)) acc) l (map map_value pre ++ l)
  = map map_value (pre ++ l).
Proof.
  revert pre. induction l as [|[k v] l IH]; intros pre Hnd; simpl.
  - rewrite !app_nil_r. reflexivity.
  - rewrite setitem_app_notin.
    + simpl. rewrite String.eqb_refl.
      replace (map map_value pre ++ (k, g v) :: l)
        with (map map_value (pre ++ [(k, v)]) ++ l)
        by (rewrite map_app, <- app_assoc; reflexivity).
      rewrite IH.
      * rewrite <- app_assoc. reflexivity.
      * rewrite <- app_assoc. exact Hnd.
    + rewrite keys_map_value. unfold keys in *. rewrite map_app in Hnd. simpl in Hnd.
      apply NoDup_remove_2 in Hnd. intros Hin. apply Hnd. apply in_or_app. left. exact Hin.
Qed.

Lemma assoc_map_value (k : string) (l : pydict) :
  assoc k (map map_value l) = option_map g (assoc k l).
Proof.
  induction l as [|[k0 v0] l IH]; simpl; [reflexivity|].
  destruct (String.eqb k k0); [reflexivity|exact IH].
Qed.
End ValueMap.

Lemma assoc_filter_not_none (k : string) (l : pydict) :
  NoDup (keys l) ->
  assoc k (filter (fun fv => negb (is_none (snd fv))) l)
  = match assoc k l with
    | Some v => if is_none v then None else Some v
    | None => None
    end.
Proof.
  induction l as [|[k0 v0] l IH]; simpl; intros Hnd; [reflexivity|].
  inversion Hnd as [|? ? Hnin Hnd']; subst.
  destruct (is_none v0) eqn:Hv; simpl.
  - rewrite IH by exact Hnd'.
    destruct (String.eqb k k0) eqn:E; [|reflexivity].
    apply String.eqb_eq in E. subst. rewrite assoc_notin by exact Hnin. rewrite Hv. reflexivity.
  - rewrite IH by exact Hnd'.
    destruct (String.eqb k k0); [rewrite Hv; reflexivity|reflexivity].
Qed.

Fixpoint nodupb (l : list string) : bool :=
  match l with
  | [] => true
  | x :: r => negb (existsb (String.eqb x) r) && nodupb r
  end.

Lemma nodupb_NoDup (l : list string) : nodupb l = true -> NoDup l.
Proof.
  induction l as [|x r IH]; simpl; intros H; [constructor|].
  apply andb_prop in H as [H1 H2]. constructor; [|exact (IH H2)].
  intros Hin. apply negb_true_iff in H1.
  assert (existsb (String.eqb x) r = true) as Hc.
  { apply existsb_exists. exists x. split; [exact Hin|apply String.eqb_refl]. }
  congruence.
Qed.

Lemma keys_ts_fields (s : TradingSignal) : keys (ts_fields s) = field_names.
Proof. reflexivity. Qed.

Lemma NoDup_field_names : NoDup field_names.
Proof. apply nodupb_NoDup. reflexivity. Qed.

Lemma NoDup_keys_filter (P : string * pyval -> bool) (l : pydict) :
  NoDup (keys l) -> NoDup (keys (filter P l)).
Proof.
  induction l as [|[k v] l IH]; simpl; intros Hnd; [constructor|].
  inversion Hnd as [|? ? Hnin Hnd']; subst.
  destruct (P (k, v)); simpl; [|exact (IH Hnd')].
  constructor; [|exact (IH Hnd')].
  intros Hin. apply Hnin. unfold keys in *. apply in_map_iff in Hin as [[k' v'] [Heq Hin]].
  apply filter_In in Hin as [Hin _]. apply in_map_iff.
  exists (k', v'). split; [exact Heq|exact Hin].
Qed.

Definition not_none_item (fv : string * pyval) : bool := negb (is_none (snd fv)).

Lemma sparse_items_eq (l : pydict) :
  NoDup (keys l) ->
  fold_left (fun acc fv => setitem (fst fv) (to_dict_value (snd fv)) acc)
            (filter not_none_item l) (filter not_none_item l)
  = map (map_value to_dict_value) (filter not_none_item l).
Proof.
  intros Hnd.
  exact (fold_setitem_map to_dict_value (filter not_none_item l) []
           (NoDup_keys_filter not_none_item l Hnd)).
Qed.

Lemma to_dict_eq (s : TradingSignal) :
  to_dict s = map (map_value to_dict_value) (filter not_none_item (ts_fields s)).
Proof.
  change (to_dict s) with
    (fold_left (fun acc fv => setitem (fst fv) (to_dict_value (snd fv)) acc)
               (filter not_none_item (ts_fields s)) (filter not_none_item (ts_fields s))).
  apply sparse_items_eq. rewrite keys_ts_fields. exact NoDup_field_names.
Qed.

(** [to_dict] at one key. *)
Lemma to_dict_assoc (s : TradingSignal) (k : string) :
  assoc k (to_dict s)
  = match assoc k (ts_fields s) with
    | Some v => if is_none v then None else Some (to_dict_value v)
    | None => None
    end.
Proof.
  rewrite to_dict_eq, assoc_map_value. unfold not_none_item.
  rewrite assoc_filter_not_none by (rewrite keys_ts_fields; exact NoDup_field_names).
  destruct (assoc k (ts_fields s)) as [v|]; [|reflexivity].
  destruct (is_none v); reflexivity.
Qed.

Lemma has_key_assoc (k : string) (d : pydict) : has_key k d = true <-> assoc k d <> None.
Proof.
  unfold has_key, keys. induction d as [|[k0 v0] d IH]; simpl.
  - split; [discriminate|intros H; exfalso; apply H; reflexivity].
  - destruct (String.eqb k k0) eqn:E; simpl.
    + split; [discriminate|reflexivity].
    + exact IH.
Qed.

Lemma to_dict_value_not_none (v : pyval) : v <> VNone -> to_dict_value v <> VNone.
Proof. destruct v; simpl; congruence. Qed.

(** Running [post_init] on the binding of [kw] decides [TradingSignal_init]. *)
Lemma TradingSignal_init_bind (kw : pydict) (arg : string -> pyval) :
  bind_kwargs kw = Ok arg ->
  TradingSignal_init kw = rbind (post_init (mk_signal arg)) (fun _ => Ok (mk_signal arg)).
Proof. intros H. unfold TradingSignal_init. rewrite H. reflexivity. Qed.

(** *** Printing a [Decimal] and reading it back *)

Definition digit (c : ascii) : Prop := is_digit c = true.

Lemma chars_of_uint_digits (u : Decimal.uint) : Forall digit (chars_of_uint u).
Proof. induction u; simpl; try constructor; try reflexivity; assumption. Qed.

Lemma uint_of_chars (u : Decimal.uint) : uint_of_digits (chars_of_uint u) = u.
Proof. induction u; simpl; rewrite ?IHu; reflexivity. Qed.

Lemma digits_value_N_digits (n : N) : digits_value (N_digits n) = n.
Proof. unfold digits_value, N_digits. rewrite uint_of_chars. apply DecimalN.Unsigned.of_to. Qed.

Lemma N_digits_digits (n : N) : Forall digit (N_digits n).
Proof. apply chars_of_uint_digits. Qed.

Lemma N_digits_nonempty (n : N) : N_digits n <> [].
Proof.
  intros H. pose proof (digits_value_N_digits n) as E.
  rewrite H in E. simpl in E. subst n. discriminate H.
Qed.

Lemma digits_value_zeros (k : nat) (l : list ascii) :
  digits_value (repeat "0"%char k ++ l) = digits_value l.
Proof. induction k as [|k IH]; [reflexivity|]. exact IH. Qed.

Lemma Forall_zeros (k : nat) : Forall digit (repeat "0"%char k).
Proof. induction k; simpl; constructor; [reflexivity|assumption]. Qed.

Lemma span_digits (ip rest : list ascii) :
  Forall digit ip ->
  match rest with [] => True | c :: _ => is_digit c = false end ->
  span is_digit (ip ++ rest) = (ip, rest).
Proof.
  intros Hip Hr. induction Hip as [|c ip Hc Hip IH]; simpl.
  - destruct rest as [|c r]; simpl; [reflexivity|]. rewrite Hr. reflexivity.
  - unfold digit in Hc. rewrite Hc, IH. reflexivity.
Qed.

Lemma span_all_digits (l : list ascii) : Forall digit l -> span is_digit l = (l, []).
Proof. intros H. pose proof (span_digits l [] H I) as E. rewrite app_nil_r in E. exact E. Qed.

Lemma split_sign_digit (c : ascii) (r : list ascii) :
  is_digit c = true -> split_sign (c :: r) = (false, c :: r).
Proof.
  intros H. destruct c as [[] [] [] [] [] [] [] []];
    simpl in H; try discriminate H; reflexivity.
Qed.

Lemma lower_digit (c : ascii) : is_digit c = true -> lower c = c.
Proof.
  intros H. destruct c as [[] [] [] [] [] [] [] []];
    simpl in H; try discriminate H; reflexivity.
Qed.

Lemma parse_exponent_digits (ds : list ascii) :
  Forall digit ds -> ds <> [] ->
  parse_exponent ("-"%char :: ds) = Some (- Z.of_N (digits_value ds))%Z /\
  parse_exponent ("+"%char :: ds) = Some (Z.of_N (digits_value ds)).
Proof.
  intros Hd Hne. unfold parse_exponent. simpl split_sign. cbv beta iota.
  rewrite span_all_digits by exact Hd.
  destruct ds as [|c l]; [congruence|]. split; reflexivity.
Qed.

Lemma parse_exponent_signed (z : Z) : parse_exponent (signed_chars z) = Some z.
Proof.
  unfold signed_chars. destruct (z <? 0)%Z eqn:Hz.
  - apply Z.ltb_lt in Hz.
    destruct (parse_exponent_digits _ (N_digits_digits (Z.to_N (- z)))
                (N_digits_nonempty _)) as [H _].
    rewrite H, digits_value_N_digits, Z2N.id by lia. f_equal. lia.
  - apply Z.ltb_ge in Hz.
    destruct (parse_exponent_digits _ (N_digits_digits (Z.to_N z))
                (N_digits_nonempty _)) as [_ H].
    rewrite H, digits_value_N_digits, Z2N.id by lia. reflexivity.
Qed.

(** Characters [strip] and the underscore removal leave alone. *)
Definition plain (c : ascii) : Prop := negb (is_space c) && negb (Ascii.eqb c "_"%char) = true.

Lemma digit_plain (c : ascii) : digit c -> plain c.
Proof.
  unfold digit, plain. intros H. destruct c as [[] [] [] [] [] [] [] []];
    simpl in H; try discriminate H; reflexivity.
Qed.

Lemma Forall_digit_plain (l : list ascii) : Forall digit l -> Forall plain l.
Proof. intros H. eapply Forall_impl; [exact digit_plain|exact H]. Qed.

Lemma drop_while_plain (l : list ascii) : Forall plain l -> drop_while is_space l = l.
Proof.
  intros H. destruct H as [|c l Hc _]; [reflexivity|]. simpl.
  unfold plain in Hc. apply andb_prop in Hc as [Hc _]. apply negb_true_iff in Hc.
  rewrite Hc. reflexivity.
Qed.

Lemma strip_plain (l : list ascii) : Forall plain l -> strip l = l.
Proof.
  intros H. unfold strip. rewrite (drop_while_plain l H).
  rewrite (drop_while_plain (rev l)) by (apply Forall_rev; exact H). apply rev_involutive.
Qed.

Lemma remove_underscores_plain (l : list ascii) : Forall plain l -> remove_underscores l = l.
Proof.
  induction 1 as [|c l Hc _ IH]; [reflexivity|]. unfold remove_underscores in *. simpl.
  unfold plain in Hc. apply andb_prop in Hc as [_ Hc]. rewrite Hc, IH. reflexivity.
Qed.

Lemma parse_decimal_plain (l : list ascii) :
  Forall plain l ->
  parse_decimal l = let '(sign, t1) := split_sign l in
                    match parse_finite sign t1 with
                    | Some d => Some d
                    | None => parse_special sign t1
                    end.
Proof. intros H. unfold parse_decimal. rewrite strip_plain, remove_underscores_plain by exact H. reflexivity. Qed.

Lemma Forall_sign_chars (s : bool) : Forall plain (sign_chars s).
Proof. destruct s; repeat constructor. Qed.

Lemma Forall_signed_chars (z : Z) : Forall plain (signed_chars z).
Proof.
  unfold signed_chars. destruct (z <? 0)%Z; constructor; try reflexivity;
    apply Forall_digit_plain, N_digits_digits.
Qed.

(** The digit-string form [__str__] gives a finite value. *)
Lemma parse_finite_text (sign : bool) (ip fp expo : list ascii) (dot : bool) (x : Z) :
  Forall digit ip -> Forall digit fp -> ip <> [] -> (dot = false -> fp = []) ->
  (expo = [] /\ x = 0%Z \/ expo = "E"%char :: signed_chars x) ->
  parse_finite sign (ip ++ (if dot then "."%char :: fp else []) ++ expo)
  = Some (DFinite sign (digits_value (ip ++ fp)) (x - Z.of_nat (length fp))%Z).
Proof.
  intros Hip Hfp Hne Hdot Hx.
  destruct ip as [|c ip']; [congruence|].
  change (lower "E"%char) with "e"%char in *.
  destruct dot; [|specialize (Hdot eq_refl); subst fp];
    destruct Hx as [[-> ->]| ->]; unfold parse_finite;
    (rewrite span_digits; [|exact Hip|simpl; try exact I; reflexivity]);
    simpl.
  all: try (rewrite span_digits; [|exact Hfp|simpl; try exact I; reflexivity]).
  all: simpl; try rewrite parse_exponent_signed.
  all: f_equal; f_equal; lia.
Qed.

Lemma parse_signed_text (s : bool) (ip fp expo : list ascii) (dot : bool) (x : Z) :
  Forall digit ip -> Forall digit fp -> ip <> [] -> (dot = false -> fp = []) ->
  (expo = [] /\ x = 0%Z \/ expo = "E"%char :: signed_chars x) ->
  parse_decimal (sign_chars s ++ ip ++ (if dot then "."%char :: fp else []) ++ expo)
  = Some (DFinite s (digits_value (ip ++ fp)) (x - Z.of_nat (length fp))%Z).
Proof.
  intros Hip Hfp Hne Hdot Hx.
  rewrite parse_decimal_plain.
  2:{ apply Forall_app; split; [apply Forall_sign_chars|].
      apply Forall_app; split; [apply Forall_digit_plain; exact Hip|].
      apply Forall_app; split.
      - destruct dot; [constructor; [reflexivity|apply Forall_digit_plain; exact Hfp]|constructor].
      - destruct Hx as [[-> _]| ->]; [constructor|].
        constructor; [reflexivity|apply Forall_signed_chars]. }
  destruct s; simpl sign_chars; simpl app at 1.
  - change (split_sign ("-"%char :: ?t)) with (true, t). cbv beta iota.
    rewrite (parse_finite_text true ip fp expo dot x Hip Hfp Hne Hdot Hx). reflexivity.
  - destruct ip as [|c ip']; [congruence|].
    rewrite <- app_comm_cons, split_sign_digit by (inversion Hip; assumption).
    cbv beta iota. rewrite app_comm_cons.
    rewrite (parse_finite_text false (c :: ip') fp expo dot x Hip Hfp Hne Hdot Hx). reflexivity.
Qed.

Lemma Forall_firstn_skipn {A} (P : A -> Prop) (k : nat) (l : list A) :
  Forall P l -> Forall P (firstn k l) /\ Forall P (skipn k l).
Proof.
  intros H. rewrite <- (firstn_skipn k l) in H. apply Forall_app in H. exact H.
Qed.

(** [__str__] of a finite value is a sign, an integer part, an optional
    fraction and an optional exponent, and their digits give back the
    coefficient and the exponent. *)
Lemma dec_str_finite_shape (s : bool) (c : N) (e : Z) :
  exists (ip : list ascii) (dot : bool) (fp expo : list ascii) (x : Z),
    dec_str (DFinite s c e) = sign_chars s ++ ip ++ (if dot then "."%char :: fp else []) ++ expo /\
    Forall digit ip /\ Forall digit fp /\ ip <> [] /\ (dot = false -> fp = []) /\
    (expo = [] /\ x = 0%Z \/ expo = "E"%char :: signed_chars x) /\
    digits_value (ip ++ fp) = c /\ (x - Z.of_nat (length fp))%Z = e.
Proof.
  pose proof (N_digits_digits c) as Hd. pose proof (N_digits_nonempty c) as Hne.
  pose proof (digits_value_N_digits c) as Hv.
  unfold dec_str. remember (N_digits c) as digs eqn:Edigs. cbv zeta.
  assert (Hlen : (1 <= Z.of_nat (length digs))%Z).
  { destruct digs; [congruence|]. simpl length. lia. }
  destruct ((e <=? 0)%Z && (-6 <? e + Z.of_nat (length digs))%Z) eqn:Hc.
  - rewrite Z.eqb_refl.
    destruct (e + Z.of_nat (length digs) <=? 0)%Z eqn:H1.
    + (* [0.000ddd]: the point before every digit *)
      apply Z.leb_le in H1.
      exists ["0"%char], true,
             (repeat "0"%char (Z.to_nat (- (e + Z.of_nat (length digs)))) ++ digs), [], 0%Z.
      refine (conj _ (conj _ (conj _ (conj _ (conj _ (conj _ (conj _ _))))))).
      * reflexivity.
      * repeat constructor.
      * apply Forall_app; split; [apply Forall_zeros|exact Hd].
      * discriminate.
      * discriminate.
      * left; split; reflexivity.
      * rewrite <- Hv. exact (digits_value_zeros (S _) digs).
      * rewrite length_app, repeat_length, Nat2Z.inj_add, Z2Nat.id by lia. lia.
    + apply Z.leb_gt in H1.
      destruct (Z.of_nat (length digs) <=? e + Z.of_nat (length digs))%Z eqn:H2.
      * (* an integer: exponent 0 *)
        apply Z.leb_le in H2. apply andb_prop in Hc as [Hc _]. apply Z.leb_le in Hc.
        replace (Z.to_nat (e + Z.of_nat (length digs) - Z.of_nat (length digs))) with 0%nat by lia.
        exists digs, false, [], [], 0%Z.
        refine (conj _ (conj _ (conj _ (conj _ (conj _ (conj _ (conj _ _))))))).
        -- simpl. rewrite !app_nil_r. reflexivity.
        -- exact Hd.
        -- constructor.
        -- exact Hne.
        -- reflexivity.
        -- left; split; reflexivity.
        -- rewrite app_nil_r. exact Hv.
        -- simpl. lia.
      * (* [ddd.ddd]: the point inside the digits *)
        apply Z.leb_gt in H2.
        set (k := Z.to_nat (e + Z.of_nat (length digs))).
        destruct (Forall_firstn_skipn digit k digs Hd) as [Hf Hs].
        exists (firstn k digs), true, (skipn k digs), [], 0%Z.
        refine (conj _ (conj _ (conj _ (conj _ (conj _ (conj _ (conj _ _))))))).
        -- reflexivity.
        -- exact Hf.
        -- exact Hs.
        -- destruct digs as [|d0 digs']; [congruence|].
           destruct k as [|k'] eqn:Ek; [unfold k in Ek; lia|]. discriminate.
        -- discriminate.
        -- left; split; reflexivity.
        -- rewrite firstn_skipn. exact Hv.
        -- rewrite length_skipn, Nat2Z.inj_sub by (unfold k; lia).
           unfold k. rewrite Z2Nat.id by lia. lia.
  - (* scientific notation: one digit before the point *)
    assert (Hnot : (1 <=? 0)%Z = false) by reflexivity. rewrite Hnot.
    destruct (Z.of_nat (length digs) <=? 1)%Z eqn:H2.
    + apply Z.leb_le in H2.
      replace (Z.to_nat (1 - Z.of_nat (length digs))) with 0%nat by lia.
      exists digs, false, [], (if (e + Z.of_nat (length digs) =? 1)%Z then []
                              else "E"%char :: signed_chars (e + Z.of_nat (length digs) - 1)),
             (e + Z.of_nat (length digs) - 1)%Z.
      refine (conj _ (conj _ (conj _ (conj _ (conj _ (conj _ (conj _ _))))))).
      * simpl. rewrite !app_nil_r. reflexivity.
      * exact Hd.
      * constructor.
      * exact Hne.
      * reflexivity.
      * destruct (e + Z.of_nat (length digs) =? 1)%Z eqn:H3; [left|right; reflexivity].
        apply Z.eqb_eq in H3. split; [reflexivity|lia].
      * rewrite app_nil_r. exact Hv.
      * simpl. lia.
    + apply Z.leb_gt in H2.
      destruct (Forall_firstn_skipn digit 1 digs Hd) as [Hf Hs].
      exists (firstn 1 digs), true, (skipn 1 digs),
             (if (e + Z.of_nat (length digs) =? 1)%Z then []
              else "E"%char :: signed_chars (e + Z.of_nat (length digs) - 1)),
             (e + Z.of_nat (length digs) - 1)%Z.
      refine (conj _ (conj _ (conj _ (conj _ (conj _ (conj _ (conj _ _))))))).
      * reflexivity.
      * exact Hf.
      * exact Hs.
      * destruct digs as [|d0 digs']; [congruence|]. discriminate.
      * discriminate.
      * destruct (e + Z.of_nat (length digs) =? 1)%Z eqn:H3; [left|right; reflexivity].
        apply Z.eqb_eq in H3. split; [reflexivity|lia].
      * rewrite firstn_skipn. exact Hv.
      * rewrite length_skipn, Nat2Z.inj_sub by lia. lia.
Qed.

Lemma map_lower_digits (l : list ascii) : Forall digit l -> map lower l = l.
Proof. induction 1 as [|c l Hc _ IH]; [reflexivity|]. simpl. rewrite lower_digit, IH by exact Hc. reflexivity. Qed.

Lemma forallb_digits (l : list ascii) : Forall digit l -> forallb is_digit l = true.
Proof. induction 1 as [|c l Hc _ IH]; [reflexivity|]. simpl. rewrite Hc, IH. reflexivity. Qed.

Lemma parse_nan_text (s sig : bool) (p : N) :
  parse_decimal (sign_chars s ++ (if sig then chars "sNaN" else chars "NaN") ++ diag_chars p)
  = Some (if sig then DsNaN s p else DNaN s p).
Proof.
  assert (Hd : Forall digit (diag_chars p)) by (destruct p; [constructor|apply N_digits_digits]).
  assert (Hv : digits_value (diag_chars p) = p) by (destruct p; [reflexivity|apply digits_value_N_digits]).
  rewrite parse_decimal_plain.
  2:{ apply Forall_app; split; [apply Forall_sign_chars|].
      apply Forall_app; split; [destruct sig; repeat constructor|].
      apply Forall_digit_plain; exact Hd. }
  remember (diag_chars p) as dg eqn:Edg. rewrite <- Hv. clear Edg Hv.
  destruct s, sig; simpl; unfold parse_finite, parse_special; simpl;
    rewrite map_lower_digits, forallb_digits by exact Hd; reflexivity.
Qed.

(** [Decimal(str(d))] is [d]: the text [__str__] prints reads back as the same
    value, sign, coefficient, exponent and NaN payload included. *)
Lemma parse_dec_str (d : decimal) : parse_decimal (dec_str d) = Some d.
Proof.
  destruct d as [s c e|s|s p|s p].
  - destruct (dec_str_finite_shape s c e)
      as (ip & dot & fp & expo & x & Heq & Hip & Hfp & Hne & Hdot & Hx & Hc & He).
    rewrite Heq, (parse_signed_text s ip fp expo dot x Hip Hfp Hne Hdot Hx), Hc, He.
    reflexivity.
  - destruct s; reflexivity.
  - exact (parse_nan_text s false p).
  - exact (parse_nan_text s true p).
Qed.

(** *** The conversion loops of [from_dict] *)

Lemma mbind_ok {A B} (m : DictM A) (k : A -> DictM B) (d d1 : pydict) (a : A) :
  m d = (d1, Ok a) -> mbind m k d = k a d1.
Proof. intros H. unfold mbind. rewrite H. reflexivity. Qed.

Lemma mbind_err {A B} (m : DictM A) (k : A -> DictM B) (d d1 : pydict) (e : pyexn) :
  m d = (d1, Err e) -> mbind m k d = (d1, Err e).
Proof. intros H. unfold mbind. rewrite H. reflexivity. Qed.

Lemma mbind_inv {A B} (m : DictM A) (k : A -> DictM B) (d d' : pydict) (b : B) :
  mbind m k d = (d', Ok b) -> exists d1 a, m d = (d1, Ok a) /\ k a d1 = (d', Ok b).
Proof.
  unfold mbind. destruct (m d) as [d1 [a|e]]; intros H; [|discriminate].
  exists d1, a. split; [reflexivity|exact H].
Qed.

Lemma mfor_app {A} (l1 l2 : list A) (body : A -> DictM unit) (d : pydict) :
  mfor_ (l1 ++ l2) body d = mbind (mfor_ l1 body) (fun _ => mfor_ l2 body) d.
Proof.
  revert d. induction l1 as [|x r IH]; intros d; simpl; unfold mbind, mret; [reflexivity|].
  destruct (body x d) as [d1 [u|e]]; [|reflexivity].
  rewrite IH. unfold mbind. reflexivity.
Qed.

Lemma existsb_assoc {A} (k : string) (l : list (string * A)) :
  existsb (String.eqb k) (map fst l) = match assoc k l with Some _ => true | None => false end.
Proof.
  induction l as [|[k0 v0] l IH]; simpl; [reflexivity|].
  destruct (String.eqb k k0); [reflexivity|exact IH].
Qed.

Lemma enum_getitem_member (c : enum_class) (n : string) :
  is_member_name c n = true -> enum_getitem c (VStr n) = Ok (VEnum c n).
Proof.
  unfold is_member_name. rewrite existsb_assoc. simpl.
  destruct (assoc n (enum_members c)); [reflexivity|discriminate].
Qed.

Lemma enum_getitem_nonmember (c : enum_class) (n : string) :
  is_member_name c n = false -> enum_getitem c (VStr n) = Err (KeyError (VStr n)).
Proof.
  unfold is_member_name. rewrite existsb_assoc. simpl.
  destruct (assoc n (enum_members c)); [discriminate|reflexivity].
Qed.

(** Enum members are named by their value. *)
Lemma enum_members_value (c : enum_class) (n v : string) :
  assoc n (enum_members c) = Some v -> v = n.
Proof.
  destruct c; simpl; intros H;
    repeat match type of H with
    | context [String.eqb n ?x] =>
        let E := fresh "E" in
        destruct (String.eqb n x) eqn:E;
        [apply String.eqb_eq in E; subst; injection H as <-; reflexivity|]
    end; discriminate.
Qed.

Lemma convert_enum_field_eq (f : string) (c : enum_class) (d : pydict) :
  convert_enum_field (f, c) d =
  match assoc f d with
  | Some v => match enum_getitem c v with
              | Ok e => (setitem f e d, Ok tt)
              | Err x => (d, Err x)
              end
  | None => (d, Ok tt)
  end.
Proof.
  unfold convert_enum_field, mbind, mget, mlift, mset, mret. simpl.
  destruct (assoc f d) as [v|]; [destruct (enum_getitem c v)|]; reflexivity.
Qed.

Lemma convert_decimal_field_eq (f : string) (d : pydict) :
  convert_decimal_field f d =
  match assoc f d with
  | Some v => if is_none v then (d, Ok tt)
              else match Decimal_of_str (py_str v) with
                   | Ok x => (setitem f x d, Ok tt)
                   | Err e => (d, Err e)
                   end
  | None => (d, Ok tt)
  end.
Proof.
  unfold convert_decimal_field, mbind, mget, mlift, mset, mret. simpl.
  destruct (assoc f d) as [v|]; [destruct (is_none v); [|destruct (Decimal_of_str (py_str v))]|];
    reflexivity.
Qed.

Lemma find_key_notin {A} (key : A -> string) (k : string) (l : list A) :
  ~ In k (map key l) -> find (fun x => String.eqb (key x) k) l = None.
Proof.
  induction l as [|x l IH]; simpl; intros H; [reflexivity|].
  destruct (String.eqb (key x) k) eqn:E.
  - apply String.eqb_eq in E. exfalso. apply H. left. exact E.
  - apply IH. intros Hin. apply H. right. exact Hin.
Qed.

Section LoopFrame.
Variable A : Type.
Variable key : A -> string.
Variable body : A -> DictM unit.
Variable R : A -> pyval -> pyval -> Prop.

(** Each step rewrites its own key only, relating the old and new entry. *)
Hypothesis body_frame : forall x d d' u, body x d = (d', Ok u) ->
  (forall k, k <> key x -> assoc k d' = assoc k d) /\
  opt_rel (R x) (assoc (key x) d) (assoc (key x) d').

Lemma mfor_frame (l : list A) :
  NoDup (map key l) ->
  forall d d' u, mfor_ l body d = (d', Ok u) ->
  forall k, match find (fun x => String.eqb (key x) k) l with
            | Some x => opt_rel (R x) (assoc k d) (assoc k d')
            | None => assoc k d' = assoc k d
            end.
Proof.
  induction l as [|x r IH]; intros Hnd d d' u H k.
  - simpl in H. injection H as <- _. reflexivity.
  - simpl in H. apply mbind_inv in H as [d1 [u1 [Hb Hr]]].
    inversion Hnd as [|? ? Hnin Hnd']; subst.
    specialize (IH Hnd' d1 d' u Hr k). destruct (body_frame x d d1 u1 Hb) as [Hfr Hrel].
    simpl. destruct (String.eqb (key x) k) eqn:Ek.
    + apply String.eqb_eq in Ek. subst k.
      rewrite (find_key_notin key (key x) r Hnin) in IH. rewrite IH. exact Hrel.
    + assert (Hk : k <> key x) by (intros ->; rewrite String.eqb_refl in Ek; discriminate).
      destruct (find (fun y => String.eqb (key y) k) r); rewrite <- (Hfr k Hk); exact IH.
Qed.
End LoopFrame.

Lemma convert_enum_frame (fc : string * enum_class) (d d' : pydict) (u : unit) :
  convert_enum_field fc d = (d', Ok u) ->
  (forall k, k <> fst fc -> assoc k d' = assoc k d) /\
  opt_rel (fun v v' => enum_getitem (snd fc) v = Ok v') (assoc (fst fc) d) (assoc (fst fc) d').
Proof.
  destruct fc as [f c]. rewrite convert_enum_field_eq. simpl.
  destruct (assoc f d) as [v|] eqn:Ha.
  - destruct (enum_getitem c v) as [e|x] eqn:Hg; intros H; [|discriminate].
    injection H as <- _. split.
    + intros k Hk. rewrite assoc_setitem. apply String.eqb_neq in Hk. rewrite Hk. reflexivity.
    + rewrite assoc_setitem, String.eqb_refl. exact Hg.
  - intros H. injection H as <- _. split; [reflexivity|]. rewrite Ha. exact I.
Qed.

Lemma convert_decimal_frame (f : string) (d d' : pydict) (u : unit) :
  convert_decimal_field f d = (d', Ok u) ->
  (forall k, k <> f -> assoc k d' = assoc k d) /\
  opt_rel (fun v v' => (v = VNone /\ v' = VNone) \/ (v <> VNone /\ Decimal_of_str (py_str v) = Ok v'))
          (assoc f d) (assoc f d').
Proof.
  rewrite convert_decimal_field_eq.
  destruct (assoc f d) as [v|] eqn:Ha.
  - destruct (is_none v) eqn:Hn.
    + intros H. injection H as <- _. split; [reflexivity|]. rewrite Ha. simpl.
      left. destruct v; try discriminate. split; reflexivity.
    + destruct (Decimal_of_str (py_str v)) as [x|e] eqn:Hd; intros H; [|discriminate].
      injection H as <- _. split.
      * intros k Hk. rewrite assoc_setitem. apply String.eqb_neq in Hk. rewrite Hk. reflexivity.
      * rewrite assoc_setitem, String.eqb_refl. simpl. right. split; [|exact Hd].
        intros ->. discriminate.
  - intros H. injection H as <- _. split; [reflexivity|]. rewrite Ha. exact I.
Qed.

Lemma find_fst_assoc {A} (k : string) (l : list (string * A)) :
  find (fun x => String.eqb (fst x) k) l = match assoc k l with Some c => Some (k, c) | None => None end.
Proof.
  induction l as [|[k0 v0] l IH]; simpl; [reflexivity|].
  rewrite String.eqb_sym. destruct (String.eqb k k0) eqn:E; [|exact IH].
  apply String.eqb_eq in E. subst. reflexivity.
Qed.

Lemma find_id_existsb (k : string) (l : list string) :
  find (fun x => String.eqb ((fun f : string => f) x) k) l = if existsb (String.eqb k) l then Some k else None.
Proof.
  induction l as [|k0 l IH]; simpl; [reflexivity|].
  rewrite String.eqb_sym. destruct (String.eqb k k0) eqn:E; [|exact IH].
  apply String.eqb_eq in E. subst. reflexivity.
Qed.

Lemma enum_not_decimal (k : string) (c : enum_class) :
  assoc k enum_fields = Some c -> is_decimal_field k = false.
Proof.
  unfold enum_fields. simpl. intros H.
  repeat match type of H with
  | context [String.eqb k ?x] =>
      let E := fresh "E" in
      destruct (String.eqb k x) eqn:E; [apply String.eqb_eq in E; subst; reflexivity|]
  end; discriminate.
Qed.

Lemma NoDup_enum_fields : NoDup (map fst enum_fields).
Proof. apply nodupb_NoDup. reflexivity. Qed.

Lemma NoDup_decimal_fields : NoDup (map (fun f : string => f) decimal_fields).
Proof. apply nodupb_NoDup. reflexivity. Qed.

Lemma bind_kwargs_ok (kw : pydict) (arg : string -> pyval) :
  bind_kwargs kw = Ok arg ->
  (forall k, has_key k kw = true -> is_field k = true) /\
  (forall n, arg n = match assoc n kw with
                     | Some v => v
                     | None => match assoc n TradingSignal_fields with
                               | Some (Some dv) => dv
                               | _ => VNone
                               end
                     end).
Proof.
  unfold bind_kwargs. destruct (find (fun kv => negb (is_field (fst kv))) kw) as [[k v]|] eqn:F;
    [discriminate|].
  destruct (filter _ TradingSignal_fields) as [|[n o] rest]; [|discriminate].
  intros H. injection H as <-. split; [|reflexivity].
  intros k Hk. unfold has_key, keys in Hk. apply existsb_exists in Hk as [k' [Hin Heq]].
  apply String.eqb_eq in Heq. subst k'. apply in_map_iff in Hin as [[k0 v0] [Hk0 Hin]].
  simpl in Hk0. subst k0. pose proof (find_none _ _ F (k, v0) Hin) as Hf. simpl in Hf.
  apply negb_false_iff in Hf. exact Hf.
Qed.

(** A successful [from_dict] builds the record from the converted dict, and
    every entry of the caller's dict is converted as [decoded_entry] says. *)
Lemma from_dict_ok (m m' : pydict) (s : TradingSignal) :
  from_dict m = (m', Ok s) ->
  (exists arg, bind_kwargs m' = Ok arg /\ s = mk_signal arg) /\
  forall k, opt_rel (decoded_entry k) (assoc k m) (assoc k m').
Proof.
  unfold from_dict. intros H.
  apply mbind_inv in H as [m1 [u1 [He H]]].
  apply mbind_inv in H as [m2 [u2 [Hd H]]].
  apply mbind_inv in H as [m3 [d3 [Hg H]]].
  unfold mget in Hg. injection Hg as <- <-. unfold mlift in H. injection H as <- Hi.
  split.
  - unfold TradingSignal_init in Hi. destruct (bind_kwargs m2) as [arg|e]; [|discriminate].
    simpl in Hi. destruct (post_init (mk_signal arg)); [|discriminate].
    injection Hi as <-. exists arg. split; reflexivity.
  - intros k.
    pose proof (mfor_frame _ fst convert_enum_field _ convert_enum_frame enum_fields
                  NoDup_enum_fields m m1 u1 He k) as HE.
    pose proof (mfor_frame _ (fun f => f) convert_decimal_field _ convert_decimal_frame
                  decimal_fields NoDup_decimal_fields m1 m2 u2 Hd k) as HD.
    rewrite find_fst_assoc in HE. rewrite find_id_existsb in HD.
    unfold decoded_entry. destruct (assoc k enum_fields) as [c|] eqn:Ek.
    + change (existsb (String.eqb k) decimal_fields) with (is_decimal_field k) in HD.
      rewrite (enum_not_decimal k c Ek) in HD. rewrite HD. exact HE.
    + change (existsb (String.eqb k) decimal_fields) with (is_decimal_field k) in HD.
      rewrite <- HE.
      destruct (is_decimal_field k).
      * exact HD.
      * rewrite HD. destruct (assoc k m1); simpl; reflexivity || exact I.
Qed.

Lemma enum_prefix_ok (pre : list (string * enum_class)) (m : pydict) :
  NoDup (map fst pre) ->
  (forall f c, In (f, c) pre -> enum_ok c (assoc f m)) ->
  exists m1, mfor_ pre convert_enum_field m = (m1, Ok tt) /\
             forall k, ~ In k (map fst pre) -> assoc k m1 = assoc k m.
Proof.
  revert m. induction pre as [|[f0 c0] r IH]; intros m Hnd Hok.
  - exists m. split; reflexivity.
  - inversion Hnd as [|? ? Hnin Hnd']; subst.
    assert (Hstep : exists m0, convert_enum_field (f0, c0) m = (m0, Ok tt) /\
                               forall k, k <> f0 -> assoc k m0 = assoc k m).
    { rewrite convert_enum_field_eq. specialize (Hok f0 c0 (or_introl eq_refl)).
      destruct (assoc f0 m) as [v|].
      - destruct Hok as [n [-> Hn]]. rewrite enum_getitem_member by exact Hn.
        eexists. split; [reflexivity|]. intros k Hk. rewrite assoc_setitem.
        apply String.eqb_neq in Hk. rewrite Hk. reflexivity.
      - exists m. split; reflexivity. }
    destruct Hstep as [m0 [Hm0 Hfr0]].
    destruct (IH m0 Hnd') as [m1 [Hm1 Hfr1]].
    { intros f c Hin. rewrite Hfr0. 
      - apply Hok. right. exact Hin.
      - intros ->. apply Hnin. apply in_map_iff. exists (f0, c). split; [reflexivity|exact Hin]. }
    exists m1. split.
    + simpl. rewrite (mbind_ok _ _ _ _ _ Hm0). exact Hm1.
    + intros k Hk. rewrite Hfr1, Hfr0; [reflexivity| |].
      * intros ->. apply Hk. left. reflexivity.
      * intros Hin. apply Hk. right. exact Hin.
Qed.

Lemma ts_fields_mk_signal (arg : string -> pyval) :
  ts_fields (mk_signal arg) = map (fun f => (f, arg f)) field_names.
Proof. reflexivity. Qed.

Lemma assoc_map_pair (h : string -> pyval) (k : string) (l : list string) :
  assoc k (map (fun f => (f, h f)) l) = if existsb (String.eqb k) l then Some (h k) else None.
Proof.
  induction l as [|f l IH]; simpl; [reflexivity|].
  destruct (String.eqb k f) eqn:E; [|exact IH].
  apply String.eqb_eq in E. subst. reflexivity.
Qed.

(** Only [reduce_only] has a default other than [None]. *)
Lemma field_default (k : string) :
  match assoc k TradingSignal_fields with Some (Some dv) => dv | _ => VNone end
  = if String.eqb k "reduce_only" then VBool false else VNone.
Proof.
  unfold TradingSignal_fields. simpl.
  repeat match goal with
  | |- context [String.eqb k ?x] =>
      lazymatch x with
      | "reduce_only"%string => fail
      | _ => let E := fresh "E" in
             destruct (String.eqb k x) eqn:E; [apply String.eqb_eq in E; subst; reflexivity|]
      end
  end.
  destruct (String.eqb k "reduce_only"); reflexivity.
Qed.

Lemma json_to_dict_value (v : pyval) : json_scalar v = true -> to_dict_value v = v.
Proof. destruct v; simpl; congruence. Qed.

Lemma assoc_In {A} (k : string) (v : A) (l : list (string * A)) :
  assoc k l = Some v -> In (k, v) l.
Proof.
  induction l as [|[k0 v0] l IH]; simpl; [discriminate|].
  destruct (String.eqb k k0) eqn:E.
  - apply String.eqb_eq in E. subst. intros H. injection H as ->. left. reflexivity.
  - intros H. right. exact (IH H).
Qed.

Lemma canonical_dec_str (d : decimal) :
  canonical_text (VStr (str (dec_str d))) = VStr (str (dec_str d)).
Proof.
  unfold canonical_text. simpl py_str. unfold chars, str.
  rewrite list_ascii_of_string_of_list_ascii, parse_dec_str. reflexivity.
Qed.

(** ** Claims *)

(** C1 (code bug).  Decoding the encoding of a constructed record does not
    give it back: [to_dict] writes the timestamp as ISO text with a [Z]
    suffix and [from_dict] never parses it back, so the decoded record holds a
    [str] where the original held a [datetime], and the two records are
    unequal. *)
Theorem roundtrip_record_loses_timestamp :
  exists s s',
    TradingSignal_init example_kwargs = Ok s /\
    snd (from_dict (to_dict s)) = Ok s' /\
    timestamp s = VDatetime example_time /\
    timestamp s' = VStr "2024-02-19T12:00:00Z" /\
    TradingSignal_eq s' s = Ok false.
Proof.
  do 2 eexists. split; [cbv; reflexivity|]. split; [cbv; reflexivity|].
  split; [reflexivity|]. split; [reflexivity|]. vm_compute. reflexivity.
Qed.

(** C3 (code bug).  No construction succeeds: executing the class statement
    raises [TypeError] because the field [message] has no default and follows
    fields with defaults.  The validation pass itself accepts the valid example
    signal and keeps every supplied value. *)
Theorem construction_fails_class_statement :
  (forall kw, TradingSignal_call kw
              = Err (TypeError "non-default argument 'message' follows default argument")) /\
  exists s, TradingSignal_init example_kwargs = Ok s /\
    map (fun k => assoc k (ts_fields s)) (keys example_kwargs)
    = map (fun k => assoc k example_kwargs) (keys example_kwargs).
Proof.
  split; [exact TradingSignal_call_fails|].
  eexists. split; [cbv; reflexivity|]. vm_compute. reflexivity.
Qed.

(** C4 (code bug).  With the percentage [100] construction still fails, at
    the class statement.  The validation pass raises the percentage
    [ValueError] for [0] and [100.01] and accepts [100]. *)
Theorem percent_bound_construction :
  TradingSignal_call (with_percent (DFinite false 100 0))
    = Err (TypeError "non-default argument 'message' follows default argument") /\
  TradingSignal_init (with_percent (DFinite false 0 0))
    = Err (ValueError "amount_capital_percent must be between 0 and 100") /\
  TradingSignal_init (with_percent (DFinite false 10001 (-2)))
    = Err (ValueError "amount_capital_percent must be between 0 and 100") /\
  exists s, TradingSignal_init (with_percent (DFinite false 100 0)) = Ok s.
Proof.
  split; [apply TradingSignal_call_fails|].
  split; [vm_compute; reflexivity|]. split; [vm_compute; reflexivity|].
  eexists. cbv. reflexivity.
Qed.

(** C5 (code bug).  An EVM signal with a non-empty contract address still
    fails to construct, at the class statement.  The validation pass rejects
    an EVM signal without a contract address or with an empty one and accepts
    one with ["0xabc"]. *)
Theorem evm_contract_construction :
  TradingSignal_call (setitem "contract_address" (VStr "0xabc") evm_kwargs)
    = Err (TypeError "non-default argument 'message' follows default argument") /\
  TradingSignal_init evm_kwargs
    = Err (ValueError "contract_address is required for EVM trades") /\
  TradingSignal_init (setitem "contract_address" (VStr "") evm_kwargs)
    = Err (ValueError "contract_address is required for EVM trades") /\
  exists s, TradingSignal_init (setitem "contract_address" (VStr "0xabc") evm_kwargs) = Ok s.
Proof.
  split; [apply TradingSignal_call_fails|].
  split; [vm_compute; reflexivity|]. split; [vm_compute; reflexivity|].
  eexists. cbv. reflexivity.
Qed.

(** C6.  Construction fails whenever the order type is [LIMIT],
    [STOP_LOSS] or [TAKE_PROFIT] and the price that order type requires is
    absent (bound to [None]): the validation pass raises, and the call of the
    class raises in any case.  From the valid example signal, swapping the
    order type (and, for [LIMIT], dropping [limit_price]) makes the validation
    pass raise exactly that order type's error. *)
Theorem order_type_companion_required (kw : pydict) (arg : string -> pyval)
  (o f msg : string)
  (Hb : bind_kwargs kw = Ok arg)
  (Ho : arg "order_type" = VEnum OrderType o)
  (Hc : companion o = Some (f, msg))
  (Hn : arg f = VNone) :
  (exists e, TradingSignal_init kw = Err e) /\
  (exists e, TradingSignal_call kw = Err e) /\
  TradingSignal_init (with_order_type o) = Err (ValueError msg) /\
  (exists s, TradingSignal_init example_kwargs = Ok s).
Proof.
  split; [|split; [eexists; apply TradingSignal_call_fails|]].
  - rewrite (TradingSignal_init_bind kw arg Hb). unfold post_init.
    cbn [mk_signal order_type limit_price stop_price take_profit_price
         amount_capital_percent trade_type contract_address].
    rewrite Ho.
    destruct (py_lt (VInt 0) (arg "amount_capital_percent")) as [lo|e];
      cbn [rbind]; [|eauto].
    destruct (if lo then py_le (arg "amount_capital_percent") (VInt 100) else Ok false)
      as [r|e]; cbn [rbind]; [|eauto].
    destruct (negb r); [cbn [rbind]; eauto|].
    destruct (is_member (arg "trade_type") TradeType "EVM"
              && negb (py_truthy (arg "contract_address"))); [cbn [rbind]; eauto|].
    unfold companion in Hc.
    destruct (String.eqb o "LIMIT") eqn:E1.
    { apply String.eqb_eq in E1. subst o. injection Hc as <- <-. rewrite Hn. simpl. eauto. }
    destruct (String.eqb o "STOP_LOSS") eqn:E2.
    { apply String.eqb_eq in E2. subst o. injection Hc as <- <-. rewrite Hn. simpl. eauto. }
    destruct (String.eqb o "TAKE_PROFIT") eqn:E3; [|discriminate].
    apply String.eqb_eq in E3. subst o. injection Hc as <- <-. rewrite Hn. simpl. eauto.
  - split; [|eexists; cbv; reflexivity].
    unfold companion in Hc.
    destruct (String.eqb o "LIMIT") eqn:E1.
    { apply String.eqb_eq in E1. subst o. injection Hc as <- <-. vm_compute. reflexivity. }
    destruct (String.eqb o "STOP_LOSS") eqn:E2.
    { apply String.eqb_eq in E2. subst o. injection Hc as <- <-. vm_compute. reflexivity. }
    destruct (String.eqb o "TAKE_PROFIT") eqn:E3; [|discriminate].
    apply String.eqb_eq in E3. subst o. injection Hc as <- <-. vm_compute. reflexivity.
Qed.

Lemma order_type_companion_required_witness :
  bind_kwargs (with_order_type "LIMIT") = Ok limit_arg /\
  limit_arg "order_type" = VEnum OrderType "LIMIT" /\
  companion "LIMIT"
    = Some ("limit_price", "limit_price is required for LIMIT and POST_ONLY orders") /\
  limit_arg "limit_price" = VNone /\
  (exists e, TradingSignal_init (with_order_type "LIMIT") = Err e).
Proof.
  split; [reflexivity|]. split; [reflexivity|]. split; [reflexivity|].
  split; [reflexivity|].
  apply (order_type_companion_required (with_order_type "LIMIT") limit_arg "LIMIT"
           "limit_price" "limit_price is required for LIMIT and POST_ONLY orders");
    reflexivity.
Defined.

(** C8.  [to_dict] has a key for a field exactly when the field's value is
    not [None], never maps a key to [None], and so has no [fixed_size] key
    when [fixed_size] is [None]. *)
Theorem to_dict_omits_none (s : TradingSignal) :
  (forall k, has_key k (to_dict s) = true
             <-> exists v, assoc k (ts_fields s) = Some v /\ v <> VNone) /\
  (forall k v, In (k, v) (to_dict s) -> v <> VNone) /\
  (fixed_size s = VNone -> has_key "fixed_size" (to_dict s) = false).
Proof.
  split; [|split].
  - intros k. rewrite has_key_assoc, to_dict_assoc.
    destruct (assoc k (ts_fields s)) as [v|].
    + split.
      * intros H. exists v. split; [reflexivity|]. intros ->. simpl in H. congruence.
      * intros [v0 [Hv Hn]]. injection Hv as <-.
        destruct v; simpl; try discriminate. exfalso. apply Hn. reflexivity.
    + split; [congruence|]. intros [v [H _]]. discriminate.
  - intros k v Hin. rewrite to_dict_eq in Hin.
    apply in_map_iff in Hin as [[k0 v0] [Heq Hin]].
    unfold map_value in Heq. simpl in Heq. injection Heq as _ <-.
    apply filter_In in Hin as [_ Hnn]. unfold not_none_item in Hnn. simpl in Hnn.
    apply to_dict_value_not_none. destruct v0; simpl in Hnn; congruence.
  - intros Hfs. destruct (has_key "fixed_size" (to_dict s)) eqn:E; [|reflexivity].
    apply has_key_assoc in E. rewrite to_dict_assoc in E. simpl in E.
    rewrite Hfs in E. simpl in E. congruence.
Qed.

Lemma to_dict_omits_none_witness :
  fixed_size (mk_signal (fun _ => VNone)) = VNone /\
  has_key "fixed_size" (to_dict (mk_signal (fun _ => VNone))) = false.
Proof.
  split; [reflexivity|].
  apply (to_dict_omits_none (mk_signal (fun _ => VNone))). reflexivity.
Defined.

(** C9 (code bug).  [from_dict] writes its conversions into the dict it is
    given: after decoding the module's own example dict, the caller's dict
    holds enum members and decimals instead of the original text, and decoding
    that same dict a second time raises [KeyError]. *)
Theorem from_dict_mutates_input :
  assoc "side" example_dict = Some (VStr "BUY") /\
  assoc "side" (fst (from_dict example_dict)) = Some (VEnum Side "BUY") /\
  fst (from_dict example_dict) <> example_dict /\
  (exists s, snd (from_dict example_dict) = Ok s) /\
  snd (from_dict (fst (from_dict example_dict))) = Err (KeyError (VEnum SignalType "TRADE")).
Proof.
  split; [reflexivity|]. split; [vm_compute; reflexivity|].
  split.
  - intros H. apply (f_equal (assoc "side")) in H. vm_compute in H. discriminate.
  - split; [eexists; cbv; reflexivity|vm_compute; reflexivity].
Qed.

(** C2 (amended). Let [m] be a dict of JSON values that [from_dict] decodes
    to a record [s].  At every key [k], [to_dict s] holds: nothing where [m]
    has no entry or holds [None], except that [reduce_only] is added with
    [False]; for a decimal field, the text [str(Decimal(str(v)))] of [m]'s
    value [v]; and [m]'s own value at every other key.  The texts
    [str(Decimal)] prints are the decimal texts that come back unchanged. *)
Theorem decode_encode_entries :
  (forall d, canonical_text (VStr (str (dec_str d))) = VStr (str (dec_str d))) /\
  (forall (m m' : pydict) (s : TradingSignal),
   forallb (fun kv => json_scalar (snd kv)) m = true ->
   from_dict m = (m', Ok s) ->
   forall k, assoc k (to_dict s) =
     match assoc k m with
     | Some VNone => None
     | Some v => Some (if is_decimal_field k then canonical_text v else v)
     | None => if String.eqb k "reduce_only" then Some (VBool false) else None
     end).
Proof.
  split; [exact canonical_dec_str|].
  intros m m' s Hj H k.
  destruct (from_dict_ok m m' s H) as [[arg [Hb ->]] Hrel].
  destruct (bind_kwargs_ok m' arg Hb) as [Hfield Harg].
  rewrite to_dict_assoc, ts_fields_mk_signal, assoc_map_pair.
  specialize (Hrel k).
  destruct (assoc k m) as [v|] eqn:Em; destruct (assoc k m') as [v'|] eqn:Em';
    try (simpl in Hrel; contradiction).
  - assert (Hf : is_field k = true) by (apply Hfield; apply has_key_assoc; congruence).
    unfold is_field in Hf. rewrite Hf, Harg, Em'.
    assert (Hjv : json_scalar v = true).
    { apply assoc_In in Em. rewrite forallb_forall in Hj. exact (Hj _ Em). }
    simpl in Hrel. unfold decoded_entry in Hrel.
    destruct (assoc k enum_fields) as [c|] eqn:Ek.
    + rewrite (enum_not_decimal k c Ek).
      unfold enum_getitem in Hrel. destruct v as [|b|z|t|d|dt|cl nm]; try discriminate.
      destruct (assoc t (enum_members c)) as [val|] eqn:Ev; [|discriminate].
      injection Hrel as <-. simpl. unfold enum_value. rewrite Ev.
      rewrite (enum_members_value c t val Ev). reflexivity.
    + destruct (is_decimal_field k).
      * destruct Hrel as [[-> ->] | [Hn Hd]]; [reflexivity|].
        unfold Decimal_of_str in Hd.
        destruct (parse_decimal (py_str v)) as [d|] eqn:Ep; [|discriminate].
        injection Hd as <-. simpl.
        destruct v; [contradiction| | | | | |]; unfold canonical_text; rewrite Ep; reflexivity.
      * subst v'. rewrite json_to_dict_value by exact Hjv. destruct v; reflexivity.
  - rewrite Harg, Em', field_default.
    destruct (String.eqb k "reduce_only") eqn:Er.
    + apply String.eqb_eq in Er. subst k. reflexivity.
    + destruct (existsb (String.eqb k) field_names); reflexivity.
Qed.

Lemma decode_encode_entries_witness :
  assoc "reduce_only" (to_dict example_signal) = Some (VBool false) /\
  assoc "fixed_size" (to_dict example_signal) = Some (VStr "1.5").
Proof.
  assert (H : from_dict example_dict = (fst (from_dict example_dict), Ok example_signal))
    by (vm_compute; reflexivity).
  assert (Hj : forallb (fun kv => json_scalar (snd kv)) example_dict = true) by reflexivity.
  split.
  - rewrite (proj2 decode_encode_entries example_dict _ example_signal Hj H "reduce_only").
    reflexivity.
  - rewrite (proj2 decode_encode_entries example_dict _ example_signal Hj H "fixed_size").
    vm_compute. reflexivity.
Defined.

(** C2 fails: decoding then encoding the example dict adds a [reduce_only]
    key, and a decimal text such as ["1e1"] comes back as ["1E+1"]. *)
Lemma decode_encode_adds_reduce_only :
  (exists s, snd (from_dict example_dict) = Ok s /\
             has_key "reduce_only" example_dict = false /\
             assoc "reduce_only" (to_dict s) = Some (VBool false)) /\
  (exists s, snd (from_dict (setitem "fixed_size" (VStr "1e1") example_dict)) = Ok s /\
             assoc "fixed_size" (to_dict s) = Some (VStr "1E+1")).
Proof.
  split; eexists; split; [cbv; reflexivity| |cbv; reflexivity|];
    [split; reflexivity|vm_compute; reflexivity].
Qed.

(** C7 (amended). When the enum fields [from_dict] converts before [f] are
    absent or hold member names, and [f] holds a text [t] that names no member
    of its class, decoding fails with [KeyError(t)]: the exception carries the
    offending text, not the field. *)
Theorem unknown_enum_tag_keyerror (m : pydict) (pre post : list (string * enum_class))
  (f : string) (c : enum_class) (t : string)
  (Hsplit : enum_fields = pre ++ (f, c) :: post)
  (Hpre : forall f' c', In (f', c') pre -> enum_ok c' (assoc f' m))
  (Hf : assoc f m = Some (VStr t))
  (Ht : is_member_name c t = false) :
  snd (from_dict m) = Err (KeyError (VStr t)).
Proof.
  pose proof NoDup_enum_fields as Hnd. rewrite Hsplit, map_app in Hnd. simpl in Hnd.
  assert (Hndp : NoDup (map fst pre)) by exact (NoDup_app_remove_r _ _ Hnd).
  assert (Hnin : ~ In f (map fst pre)).
  { intros Hin. apply (NoDup_remove_2 _ _ _ Hnd). apply in_or_app. left. exact Hin. }
  destruct (enum_prefix_ok pre m Hndp Hpre) as [m1 [Hrun Hfr]].
  assert (Henum : mfor_ enum_fields convert_enum_field m = (m1, Err (KeyError (VStr t)))).
  { rewrite Hsplit, mfor_app, (mbind_ok _ _ _ _ _ Hrun).
    change (mfor_ ((f, c) :: post) convert_enum_field)
      with (mbind (convert_enum_field (f, c)) (fun _ => mfor_ post convert_enum_field)).
    apply mbind_err. rewrite convert_enum_field_eq, (Hfr f Hnin), Hf.
    rewrite enum_getitem_nonmember by exact Ht. reflexivity. }
  unfold from_dict. rewrite (mbind_err _ _ _ _ _ Henum). reflexivity.
Qed.

Lemma unknown_enum_tag_keyerror_witness :
  snd (from_dict (bogus_dict "order_type")) = Err (KeyError (VStr "BOGUS")).
Proof.
  apply (unknown_enum_tag_keyerror (bogus_dict "order_type")
           [("type", SignalType); ("trade_type", TradeType); ("side", Side)] []
           "order_type" OrderType "BOGUS").
  - reflexivity.
  - intros f' c' Hin. simpl in Hin.
    destruct Hin as [H|[H|[H|[]]]]; injection H as <- <-; cbv; eexists; split; reflexivity.
  - reflexivity.
  - reflexivity.
Defined.

(** C7 fails: the same bad text in [order_type] and in [side] raises the
    same exception, so it does not name the field. *)
Lemma unknown_enum_error_omits_field :
  snd (from_dict (bogus_dict "order_type")) = Err (KeyError (VStr "BOGUS")) /\
  snd (from_dict (bogus_dict "side")) = Err (KeyError (VStr "BOGUS")).
Proof. split; vm_compute; reflexivity. Qed.

(** C10 (amended). [to_dict] keeps [reduce_only] exactly when it is not
    [None], [False] included; a record decoded from a dict without a
    [reduce_only] key has [reduce_only = False] and so keeps the key. *)
Theorem reduce_only_encoding (s : TradingSignal) :
  assoc "reduce_only" (to_dict s)
  = (if is_none (reduce_only s) then None else Some (to_dict_value (reduce_only s))) /\
  (forall m m' s', from_dict m = (m', Ok s') -> has_key "reduce_only" m = false ->
     reduce_only s' = VBool false /\ assoc "reduce_only" (to_dict s') = Some (VBool false)).
Proof.
  split.
  - rewrite to_dict_assoc. reflexivity.
  - intros m m' s' H Hk.
    destruct (from_dict_ok m m' s' H) as [[arg [Hb ->]] Hrel].
    specialize (Hrel "reduce_only").
    destruct (assoc "reduce_only" m) as [v|] eqn:E.
    { exfalso. assert (Hh : has_key "reduce_only" m = true) by (apply has_key_assoc; congruence).
      congruence. }
    destruct (assoc "reduce_only" m') as [v'|] eqn:E'; [simpl in Hrel; contradiction|].
    destruct (bind_kwargs_ok _ _ Hb) as [_ Harg].
    assert (Hr : reduce_only (mk_signal arg) = VBool false) by (simpl; rewrite Harg, E'; reflexivity).
    split; [exact Hr|].
    rewrite to_dict_assoc.
    change (assoc "reduce_only" (ts_fields (mk_signal arg))) with (Some (reduce_only (mk_signal arg))).
    rewrite Hr. reflexivity.
Qed.

Lemma reduce_only_encoding_witness :
  reduce_only example_signal = VBool false /\
  assoc "reduce_only" (to_dict example_signal) = Some (VBool false).
Proof.
  assert (H : from_dict example_dict = (fst (from_dict example_dict), Ok example_signal))
    by (vm_compute; reflexivity).
  exact (proj2 (reduce_only_encoding example_signal) example_dict _ example_signal H eq_refl).
Defined.

(** C10 fails: a record decoded with [reduce_only = None] encodes without the
    key. *)
Lemma to_dict_drops_none_reduce_only :
  exists s, snd (from_dict (example_dict ++ [("reduce_only", VNone)])) = Ok s /\
            reduce_only s = VNone /\
            has_key "reduce_only" (to_dict s) = false.
Proof. eexists. split; [cbv; reflexivity|split; vm_compute; reflexivity]. Qed.
